(** * Cherrywood Apartments nuisance reporter: the submission pipeline

    A shallow embedding of [app.py]: the CSV record store
    ([initialize_csv], [save_report]), the e-mail notifier
    ([send_email_alert]) and the form handler of [tenant_interface].

    Modelling conventions.
    - The program is effectful Python; it is embedded in a state-and-exception
      monad [M] over a [World] that holds the reports file, the messages
      shown through Streamlit, the SMTP commands issued and the number of
      clock readings taken.  An exception keeps the effects made before it.
    - A CSV file is represented by the table of text it holds: the column
      labels and, row by row, the fields as written (an empty field is
      [None]).  Reading it is not the identity: [pd.read_csv] turns the NA
      markers of pandas into missing values and re-types every column; what a
      re-typed cell looks like when written again is the parameter [retype],
      about which nothing is assumed.  A file on which [pd.read_csv] raises is
      [Unparsable e], [e] being what it raises.
    - The environment of a run is a parameter: the wall clock ([clock]),
      pandas' typing of cells ([retype]), the SMTP relay's reaction to each
      command ([smtp_reply]) and the module-level configuration read from the
      process environment ([Config]). *)

From Stdlib Require Import String Ascii List Bool Arith Lia.
Import ListNotations.
Open Scope string_scope.
Open Scope list_scope.

Set Implicit Arguments.

(** ** Python values used by the program *)

(** [not s] on a Python string: the empty string is the only falsy one. *)
Definition py_not (s : string) : bool := String.eqb s "".

Definition nl : string := String (ascii_of_nat 10) EmptyString.

(** ** pandas: data frames *)

Module pd.

(** A cell holds text; [None] is pandas' missing value (NaN). *)
Definition cell := option string.

Record DataFrame := mkDataFrame {
  columns : list string;
  rows : list (list cell)
}.

Definition has_col (c : string) (cols : list string) : bool :=
  existsb (String.eqb c) cols.

(** The cell of row [r] (laid out along [cols]) under column [c]. *)
Fixpoint at_col (c : string) (cols : list string) (r : list cell) : cell :=
  match cols, r with
  | k :: cols', v :: r' => if String.eqb c k then v else at_col c cols' r'
  | _, _ => None
  end.

(** Re-lay a row along [target]; columns it lacks become missing. *)
Definition reindex (target src : list string) (r : list cell) : list cell :=
  map (fun c => at_col c src r) target.

(** Union of column labels, keeping first-appearance order. *)
Definition union_cols (a b : list string) : list string :=
  a ++ filter (fun c => negb (has_col c a)) b.

(** [pd.DataFrame(columns=[...])]: a frame with a header and no rows. *)
Definition DataFrame_columns (cols : list string) : DataFrame :=
  mkDataFrame cols [].

(** [pd.DataFrame([d])]: a one-row frame from a dict, in key order. *)
Definition DataFrame_record (d : list (string * string)) : DataFrame :=
  mkDataFrame (map fst d) [map (fun kv => Some (snd kv)) d].

(** [pd.concat([df1, df2], ignore_index=True)]: rows of [df1] then rows of
    [df2], over the union of the columns (outer join). *)
Definition concat (df1 df2 : DataFrame) : DataFrame :=
  let cols := union_cols (columns df1) (columns df2) in
  mkDataFrame cols
    (map (reindex cols (columns df1)) (rows df1) ++
     map (reindex cols (columns df2)) (rows df2)).

(** [len(df)] *)
Definition len (df : DataFrame) : nat := length (rows df).

(** The text [pd.read_csv] reads as a missing value (its default
    [na_values]); the empty field is one of them. *)
Definition NA_VALUES : list string :=
  [""; "#N/A"; "#N/A N/A"; "#NA"; "-1.#IND"; "-1.#QNAN"; "-NaN"; "-nan";
   "1.#IND"; "1.#QNAN"; "<NA>"; "N/A"; "NA"; "NULL"; "NaN"; "None"; "n/a";
   "nan"; "null"].

Definition is_na (s : string) : bool := existsb (String.eqb s) NA_VALUES.

(** How pandas types what it reads: [retype df k s] is the text that
    [to_csv] writes for the cell read from the field [s] of column [k] of the
    file holding [df].  A column of plain text comes back as it is; a column
    pandas reads as numbers or booleans comes back in their canonical
    spelling (007 as 7, 1e5 as 100000.0). *)
Definition typing : Type := DataFrame -> string -> string -> string.

(** One field, read: missing if it is empty or an NA marker, re-typed
    otherwise. *)
Definition parse_cell (retype : typing) (df : DataFrame) (k : string)
    (c : cell) : cell :=
  match c with
  | None => None
  | Some s => if is_na s then None else Some (retype df k s)
  end.

Fixpoint parse_row (retype : typing) (df : DataFrame) (cols : list string)
    (r : list cell) : list cell :=
  match cols, r with
  | k :: cols', c :: r' =>
      parse_cell retype df k c :: parse_row retype df cols' r'
  | _, _ => []
  end.

(** The frame [pd.read_csv] returns for the file holding [df], as [to_csv]
    would write it. *)
Definition parse (retype : typing) (df : DataFrame) : DataFrame :=
  mkDataFrame (columns df)
    (map (parse_row retype df (columns df)) (rows df)).

End pd.

(** ** Reports, as read from a frame by column name *)

Record Report := mkReport {
  Timestamp : pd.cell;
  Issue_Type : pd.cell;
  Description : pd.cell;
  Location : pd.cell;
  Status : pd.cell
}.

Definition REPORT_COLUMNS : list string :=
  ["Timestamp"; "Issue Type"; "Description"; "Location"; "Status"].

Definition report_of_row (cols : list string) (r : list pd.cell) : Report :=
  mkReport (pd.at_col "Timestamp" cols r) (pd.at_col "Issue Type" cols r)
           (pd.at_col "Description" cols r) (pd.at_col "Location" cols r)
           (pd.at_col "Status" cols r).

Definition reports_of (df : pd.DataFrame) : list Report :=
  map (report_of_row (pd.columns df)) (pd.rows df).


(** ** The world the program runs in *)

Inductive exn :=
| FileNotFoundError                 (* pd.read_csv when there is no file *)
| EmptyDataError                    (* pd.read_csv on a file with no columns *)
| ParserError                       (* pd.read_csv on rows it cannot tokenize *)
| UnicodeDecodeError                (* pd.read_csv on bytes that are not UTF-8 *)
| PermissionError                   (* opening the reports file for writing *)
| SMTPError (msg : string).         (* anything smtplib raises *)

Definition exn_str (e : exn) : string :=
  match e with
  | FileNotFoundError => "[Errno 2] No such file or directory: 'reports.csv'"
  | EmptyDataError => "No columns to parse from file"
  | ParserError => "Error tokenizing data"
  | UnicodeDecodeError => "'utf-8' codec can't decode byte"
  | PermissionError => "[Errno 13] Permission denied: 'reports.csv'"
  | SMTPError msg => msg
  end.

Inductive file_content :=
| Csv (df : pd.DataFrame)           (* the table of text in the file *)
| Unparsable (e : exn).             (* pd.read_csv raises [e] on it *)

Record Email := mkEmail {
  From : string;
  To : string;
  Subject : string;
  body : string
}.

Inductive smtp_action :=
| Connect (host : string) (port : nat)
| StartTLS
| Login (user password : string)
| SendMessage (msg : Email)
| Quit.

Inductive ui_event :=
| StError (msg : string)
| StSuccess (msg : string)
| StInfo (msg : string)
| StWarning (msg : string)
| StBalloons.

Record World := mkWorld {
  reports_file : option file_content;  (* REPORTS_FILE; [None]: no such file *)
  writable : bool;                     (* can REPORTS_FILE be opened for writing *)
  ticks : nat;                         (* calls of datetime.now() so far *)
  ui : list ui_event;                  (* what Streamlit has shown *)
  net : list smtp_action               (* SMTP commands issued *)
}.

(** ** The state-and-exception monad *)

Inductive result (A : Type) :=
| Ok (a : A)
| Raise (e : exn).
Arguments Ok {A} a.
Arguments Raise {A} e.

Definition M (A : Type) : Type := World -> result A * World.

Definition ret {A} (a : A) : M A := fun w => (Ok a, w).

Definition raise {A} (e : exn) : M A := fun w => (Raise e, w).

Definition bind {A B} (m : M A) (k : A -> M B) : M B :=
  fun w =>
    match m w with
    | (Ok a, w') => k a w'
    | (Raise e, w') => (Raise e, w')
    end.

(** [try: m  except Exception as e: h e] *)
Definition try_except {A} (m : M A) (h : exn -> M A) : M A :=
  fun w =>
    match m w with
    | (Ok a, w') => (Ok a, w')
    | (Raise e, w') => h e w'
    end.

Notation "x <- m ;; k" := (bind m (fun x => k))
  (at level 61, m at next level, right associativity).
Notation "m ;; k" := (bind m (fun _ => k))
  (at level 61, right associativity).

(** ** Streamlit output *)

Module st.
Definition emit (e : ui_event) : M unit :=
  fun w => (Ok tt, mkWorld (reports_file w) (writable w) (ticks w)
                           (ui w ++ [e]) (net w)).
Definition error (msg : string) : M unit := emit (StError msg).
Definition success (msg : string) : M unit := emit (StSuccess msg).
Definition info (msg : string) : M unit := emit (StInfo msg).
Definition warning (msg : string) : M unit := emit (StWarning msg).
Definition balloons : M unit := emit StBalloons.
End st.

(** ** File system and pandas I/O on REPORTS_FILE *)

(** [os.path.exists(REPORTS_FILE)] *)
Definition os_path_exists : M bool :=
  fun w => (Ok (match reports_file w with Some _ => true | None => false end), w).

(** [pd.read_csv(REPORTS_FILE)] *)
Definition read_csv (retype : pd.typing) : M pd.DataFrame :=
  fun w =>
    match reports_file w with
    | Some (Csv df) => ret (pd.parse retype df) w
    | Some (Unparsable e) => raise e w
    | None => raise FileNotFoundError w
    end.

(** [df.to_csv(REPORTS_FILE, index=False)]: replaces the whole file by the
    text of [df]. *)
Definition to_csv (df : pd.DataFrame) : M unit :=
  fun w =>
    if writable w
    then ret tt (mkWorld (Some (Csv df)) (writable w) (ticks w) (ui w) (net w))
    else raise PermissionError w.

(** ** Configuration (module level, from the process environment) *)

Record Config := mkConfig {
  SMTP_SERVER : string;
  SMTP_PORT : nat;
  SENDER_EMAIL : string;       (* os.getenv("SENDER_EMAIL", "") *)
  SENDER_PASSWORD : string;    (* os.getenv("SENDER_PASSWORD", "") *)
  SECURITY_EMAIL : string      (* os.getenv("SECURITY_EMAIL", "") *)
}.

(** ** The form of [tenant_interface] *)

Inductive issue_option := CarAlarm | NoiseComplaint | Other.

Definition ISSUE_TYPES : list string := ["Car Alarm"; "Noise Complaint"; "Other"].

(** [st.selectbox("Issue Type *", ISSUE_TYPES)] hands back the chosen label. *)
Definition selectbox (o : issue_option) : string :=
  match o with
  | CarAlarm => "Car Alarm"
  | NoiseComplaint => "Noise Complaint"
  | Other => "Other"
  end.

Record Form := mkForm {
  selected : issue_option;
  location_input : string;
  description_input : string;
  submit_button : bool
}.

(** ** The program *)

Section Program.

(** [clock n] is what the [n]-th call of
    [datetime.now().strftime("%Y-%m-%d %H:%M:%S")] gives. *)
Variable clock : nat -> string.

(** pandas' typing of the cells it reads. *)
Variable retype : pd.typing.

(** What the relay does at each command: [None] accepts it, [Some e] makes
    smtplib raise [e]. *)
Variable smtp_reply : smtp_action -> option exn.

Variable cfg : Config.

Definition datetime_now : M string :=
  fun w => (Ok (clock (ticks w)),
            mkWorld (reports_file w) (writable w) (S (ticks w)) (ui w) (net w)).

(** [initialize_csv()] *)
Definition initialize_csv : M unit :=
  ex <- os_path_exists ;;
  if negb ex
  then to_csv (pd.DataFrame_columns
                 ["Timestamp"; "Issue Type"; "Description"; "Location"; "Status"])
  else ret tt.

(** The frame [save_report] is about to write: lines 95-109. *)
Definition save_report_frame (issue_type description location : string)
  : M pd.DataFrame :=
  timestamp <- datetime_now ;;
  let new_report := pd.DataFrame_record
    [("Timestamp", timestamp);
     ("Issue Type", issue_type);
     ("Description", description);
     ("Location", location);
     ("Status", "Pending")] in
  ex <- os_path_exists ;;
  if ex
  then df <- read_csv retype ;; ret (pd.concat df new_report)
  else ret new_report.

(** [save_report(issue_type, description, location)].  The function has no
    [return] statement: the call evaluates to Python's [None], here [None];
    a returned record would be [Some r]. *)
Definition save_report (issue_type description location : string)
  : M (option Report) :=
  df <- save_report_frame issue_type description location ;;
  to_csv df ;;
  ret None.

(** One SMTP command: logged, then accepted or refused by the relay. *)
Definition smtp_do (a : smtp_action) : M unit :=
  fun w =>
    let w' := mkWorld (reports_file w) (writable w) (ticks w) (ui w) (net w ++ [a]) in
    match smtp_reply a with
    | None => (Ok tt, w')
    | Some e => (Raise e, w')
    end.

(** [with smtplib.SMTP(host, port) as server: block].  The constructor
    connects; leaving the block, normally or by an exception, issues QUIT,
    and an exception escaping from that replaces the block's outcome. *)
Definition with_SMTP {A} (host : string) (port : nat) (block : M A) : M A :=
  smtp_do (Connect host port) ;;
  fun w =>
    match block w with
    | (r, w1) =>
        match smtp_do Quit w1 with
        | (Ok _, w2) => (r, w2)
        | (Raise e, w2) => (Raise e, w2)
        end
    end.

Definition email_body (issue_type description location now : string) : string :=
  let ind := "        " in
  nl ++ ind ++ "A new nuisance report has been submitted at Cherrywood Apartments." ++
  nl ++ ind ++
  nl ++ ind ++ "Issue Type: " ++ issue_type ++
  nl ++ ind ++ "Location: " ++ location ++
  nl ++ ind ++ "Time: " ++ now ++
  nl ++ ind ++
  nl ++ ind ++ "Description:" ++
  nl ++ ind ++ description ++
  nl ++ ind ++
  nl ++ ind ++ "Please address this issue promptly." ++
  nl ++ ind ++
  nl ++ ind ++ "---" ++
  nl ++ ind ++ "This alert was generated automatically by the Cherrywood Apartments Nuisance Reporting System." ++
  nl ++ ind ++ "Powered by AI Transform" ++
  nl ++ ind.

(** The MIME message of lines 132-155, [now] being the clock reading taken
    for its body. *)
Definition alert_message (issue_type description location now : string) : Email :=
  mkEmail (SENDER_EMAIL cfg) (SECURITY_EMAIL cfg)
          ("🚨 Nuisance Report: " ++ issue_type)
          (email_body issue_type description location now).

(** The [try] block of [send_email_alert]: lines 131-163. *)
Definition send_email_attempt (issue_type description location : string)
  : M bool :=
  now <- datetime_now ;;
  let message := alert_message issue_type description location now in
  with_SMTP (SMTP_SERVER cfg) (SMTP_PORT cfg)
    (smtp_do StartTLS ;;
     smtp_do (Login (SENDER_EMAIL cfg) (SENDER_PASSWORD cfg)) ;;
     smtp_do (SendMessage message)) ;;
  ret true.

(** [send_email_alert(issue_type, description, location)] *)
Definition send_email_alert (issue_type description location : string)
  : M bool :=
  if py_not (SENDER_EMAIL cfg) || py_not (SENDER_PASSWORD cfg)
     || py_not (SECURITY_EMAIL cfg)
  then ret false
  else
    try_except
      (send_email_attempt issue_type description location)
      (fun e =>
         st.error ("Failed to send email alert: " ++ exn_str e) ;;
         ret false).

(** The body of [if submit_button:] in [tenant_interface], lines 218-236:
    the spec's [submit_report]. *)
Definition submit_report (issue_type description location : string) : M unit :=
  if py_not location || py_not description
  then st.error "Please fill in all required fields."
  else
    save_report issue_type description location ;;
    email_sent <- send_email_alert issue_type description location ;;
    st.success "✅ Report submitted successfully!" ;;
    (if email_sent
     then st.info "📧 Security team has been notified via email."
     else st.warning "⚠️ Report saved, but email notification could not be sent. Please check email configuration.") ;;
    st.balloons.

(** [tenant_interface()], the form part: the three widgets are read, and the
    handler runs when the submit button was pressed.  (The static page
    elements drawn before the form are left out.) *)
Definition tenant_interface (f : Form) : M unit :=
  let issue_type := selectbox (selected f) in
  let location := location_input f in
  let description := description_input f in
  if submit_button f
  then submit_report issue_type description location
  else ret tt.

(** [management_dashboard()], the data part: the frame shown, if any. *)
Definition management_dashboard : M (option pd.DataFrame) :=
  ex <- os_path_exists ;;
  if ex
  then df <- read_csv retype ;;
       if Nat.ltb 0 (pd.len df) then ret (Some df) else ret None
  else ret None.

(** ** Request threads

    Streamlit serves every browser session on a thread of its own, and
    [save_report] takes no lock.  A thread running [save_report] is cut at
    the one point where another thread can get in between its read of the
    file and its write: after lines 95-109 the frame to write is in hand. *)

Inductive thread :=
| Start (issue_type description location : string)
| Loaded (df : pd.DataFrame)
| Returned
| Crashed (e : exn).

Definition thread_step (t : thread) (w : World) : thread * World :=
  match t with
  | Start issue_type description location =>
      match save_report_frame issue_type description location w with
      | (Ok df, w') => (Loaded df, w')
      | (Raise e, w') => (Crashed e, w')
      end
  | Loaded df =>
      match to_csv df w with
      | (Ok _, w') => (Returned, w')
      | (Raise e, w') => (Crashed e, w')
      end
  | Returned => (Returned, w)
  | Crashed e => (Crashed e, w)
  end.




(** ** Vocabulary of the specification *)

(** The record [save_report] builds at clock reading [ts]. *)
Definition pending_report (ts issue_type description location : string) : Report :=
  mkReport (Some ts) (Some issue_type) (Some description) (Some location)
           (Some "Pending").

(** The reports [reqs] turn into when the first is stamped at the [n]-th
    clock reading and each later one at the next. *)
Fixpoint stamped (n : nat) (reqs : list (string * string * string)) : list Report :=
  match reqs with
  | [] => []
  | (issue_type, description, location) :: rest =>
      pending_report (clock n) issue_type description location
      :: stamped (S n) rest
  end.

(** All three delivery settings are present. *)
Definition configured : Prop :=
  SENDER_EMAIL cfg <> "" /\ SENDER_PASSWORD cfg <> "" /\ SECURITY_EMAIL cfg <> "".

(** The relay accepts every command of the session that delivers [msg]. *)
Definition relay_accepts (msg : Email) : Prop :=
  smtp_reply (Connect (SMTP_SERVER cfg) (SMTP_PORT cfg)) = None /\
  smtp_reply StartTLS = None /\
  smtp_reply (Login (SENDER_EMAIL cfg) (SENDER_PASSWORD cfg)) = None /\
  smtp_reply (SendMessage msg) = None /\
  smtp_reply Quit = None.

End Program.

(** The records in the store as they stand in the file, oldest first; none
    when the file is missing. *)
Definition stored_reports (w : World) : list Report :=
  match reports_file w with
  | Some (Csv df) => reports_of df
  | _ => []
  end.


(** The storage medium works: the file, if there, parses, and can be
    written. *)
Definition store_ok (w : World) : Prop :=
  writable w = true /\ forall e, reports_file w <> Some (Unparsable e).



(** ** The pages and the script

    What one run of the script does besides the form: the dashboard page,
    the login page and [main].  A run also reads and writes
    [st.session_state], and [st.rerun()] ends it at once; both are carried by
    the page monad [P] on top of [M]. *)

(** [st.session_state]: whether the key [logged_in] is set, and to what. *)
Definition Session : Type := option bool.

Inductive outcome (A : Type) :=
| Done (a : A)
| Failed (e : exn)          (* an exception left the script *)
| RerunRequested.           (* st.rerun() *)
Arguments Done {A} a.
Arguments Failed {A} e.
Arguments RerunRequested {A}.

Definition P (A : Type) : Type := Session -> World -> outcome A * Session * World.

Definition retP {A} (a : A) : P A := fun s w => (Done a, s, w).

Definition bindP {A B} (m : P A) (k : A -> P B) : P B :=
  fun s w =>
    match m s w with
    | (Done a, s', w') => k a s' w'
    | (Failed e, s', w') => (Failed e, s', w')
    | (RerunRequested, s', w') => (RerunRequested, s', w')
    end.

(** A call that does not touch the session state. *)
Definition liftP {A} (m : M A) : P A :=
  fun s w =>
    match m w with
    | (Ok a, w') => (Done a, s, w')
    | (Raise e, w') => (Failed e, s, w')
    end.

Definition get_session : P Session := fun s w => (Done s, s, w).

(** [st.session_state.logged_in = b] *)
Definition set_logged_in (b : bool) : P unit := fun _ w => (Done tt, Some b, w).

(** [st.rerun()] *)
Definition st_rerun {A} : P A := fun s w => (RerunRequested, s, w).

Definition TENANT_USERNAME : string := "tenant".
Definition TENANT_PASSWORD : string := "password123".

(** The sidebar radio of [main]. *)
Inductive page := SubmitReport | ViewDashboard.

Definition page_label (p : page) : string :=
  match p with
  | SubmitReport => "Submit Report"
  | ViewDashboard => "View Dashboard"
  end.

(** The widget values of one run. *)
Record Widgets := mkWidgets {
  username_input : string;
  password_input : string;
  login_button : bool;
  page_radio : page;
  logout_button : bool;
  report_form : Form
}.

(** What the dashboard puts on the page besides messages: the count, the
    table, and the download offered (its data and its file name). *)
Inductive dashboard_view :=
| ReportsTable (total : nat) (table : pd.DataFrame)
               (download : file_content) (file_name : string)
| NoTable.

Section Pages.

Variable clock : nat -> string.
Variable retype : pd.typing.

(** [clock_ymd n] is what the [n]-th call of
    [datetime.now().strftime('%Y%m%d')] gives. *)
Variable clock_ymd : nat -> string.

Variable smtp_reply : smtp_action -> option exn.
Variable cfg : Config.

Definition datetime_now_ymd : M string :=
  fun w => (Ok (clock_ymd (ticks w)),
            mkWorld (reports_file w) (writable w) (S (ticks w)) (ui w) (net w)).

(** [management_dashboard()], with what it shows. *)
Definition management_dashboard_page : M dashboard_view :=
  ex <- os_path_exists ;;
  if ex
  then
    df <- read_csv retype ;;
    if Nat.ltb 0 (pd.len df)
    then
      today <- datetime_now_ymd ;;
      ret (ReportsTable (pd.len df) df (Csv df)
             ("cherrywood_reports_" ++ today ++ ".csv"))
    else st.info "No reports have been submitted yet." ;; ret NoTable
  else st.info "No reports have been submitted yet." ;; ret NoTable.

(** [login_page()] *)
Definition login_page (wd : Widgets) : P unit :=
  bindP
    (if login_button wd
     then
       if String.eqb (username_input wd) TENANT_USERNAME
          && String.eqb (password_input wd) TENANT_PASSWORD
       then bindP (set_logged_in true) (fun _ => st_rerun)
       else liftP (st.error "Invalid username or password. Please try again.")
     else retP tt)
    (fun _ =>
       liftP (st.info "**Demo Credentials:** Username: `tenant` | Password: `password123`")).

(** [main()]: one run of the script.  The result is what the dashboard
    showed, if the run got there. *)
Definition main (wd : Widgets) : P (option dashboard_view) :=
  bindP (liftP initialize_csv) (fun _ =>
  bindP get_session (fun s0 =>
  bindP (match s0 with
         | None => set_logged_in false
         | Some _ => retP tt
         end) (fun _ =>
  bindP get_session (fun s1 =>
  if negb (match s1 with Some b => b | None => false end)
  then bindP (login_page wd) (fun _ => retP None)
  else
    bindP (if logout_button wd
           then bindP (set_logged_in false) (fun _ => st_rerun)
           else retP tt) (fun _ =>
    let page := page_label (page_radio wd) in
    if String.eqb page "Submit Report"
    then bindP (liftP (tenant_interface clock retype smtp_reply cfg
                         (report_form wd)))
               (fun _ => retP None)
    else if String.eqb page "View Dashboard"
    then bindP (liftP management_dashboard_page) (fun v => retP (Some v))
    else retP None))))).

End Pages.

(** The messages a run added to the page, and the SMTP commands it issued. *)
Definition shown (w w' : World) : list ui_event := skipn (length (ui w)) (ui w').
Definition issued (w w' : World) : list smtp_action := skipn (length (net w)) (net w').

(** The reports file has the five columns of the program, and every row
    has five cells. *)
Definition standard_file (fc : file_content) : Prop :=
  match fc with
  | Csv df => pd.columns df = REPORT_COLUMNS /\
              Forall (fun r => length r = 5) (pd.rows df)
  | Unparsable _ => False
  end.

(** The store is missing or laid out as the program lays it out. *)
Definition standard_store (w : World) : Prop :=
  match reports_file w with
  | None => True
  | Some fc => standard_file fc
  end.

(** ** Sample environments, used to run the program on concrete inputs *)

Definition demo_clock (n : nat) : string :=
  match n with
  | 0 => "2025-03-01 23:58:07"
  | 1 => "2025-03-01 23:58:09"
  | _ => "2025-03-02 00:10:41"
  end.

Definition relay_up (a : smtp_action) : option exn := None.

Definition relay_rejects_login (a : smtp_action) : option exn :=
  match a with
  | Login _ _ => Some (SMTPError "(535, b'5.7.8 Username and Password not accepted')")
  | _ => None
  end.

Definition cfg_unset : Config := mkConfig "smtp.gmail.com" 587 "" "" "".

Definition cfg_set : Config :=
  mkConfig "smtp.gmail.com" 587 "office@cherrywood.example" "app-password"
           "security@cherrywood.example".

(** No reports file yet, on a writable disk. *)
Definition world_fresh : World := mkWorld None true 0 [] [].

(** After [initialize_csv]: the header and no rows. *)
Definition world_initialized : World :=
  mkWorld (Some (Csv (pd.DataFrame_columns REPORT_COLUMNS))) true 0 [] [].

(** A store holding one earlier report. *)
Definition world_one_report : World :=
  mkWorld (Some (Csv (pd.mkDataFrame REPORT_COLUMNS
             [[Some "2025-02-27 08:15:30"; Some "Car Alarm";
               Some "Alarm going off for an hour"; Some "Parking Lot B";
               Some "Pending"]])))
          true 0 [] [].


(** The reports file cannot be opened for writing. *)
Definition world_read_only : World :=
  mkWorld (Some (Csv (pd.DataFrame_columns REPORT_COLUMNS))) false 0 [] [].

(** A visitor who has typed the demo credentials and pressed Login. *)
Definition widgets_login : Widgets :=
  mkWidgets "tenant" "password123" true SubmitReport false
            (mkForm CarAlarm "" "" false).

(** A tenant on the report page who has filled in the form and pressed
    Submit. *)
Definition widgets_submit : Widgets :=
  mkWidgets "" "" false SubmitReport false
            (mkForm NoiseComplaint "Building 2 Unit 4"
                    "Loud music after midnight" true).

(** The same form, with the Logout button pressed. *)
Definition widgets_logout : Widgets :=
  mkWidgets "" "" false SubmitReport true
            (mkForm NoiseComplaint "Building 2 Unit 4"
                    "Loud music after midnight" true).

Definition demo_clock_ymd (n : nat) : string :=
  match n with
  | 0 | 1 => "20250301"
  | _ => "20250302"
  end.

(** * Properties *)

(** ** Data frames *)













(** An NA marker is read as a missing value, whatever the typing. *)
Lemma parse_cell_na (retype : pd.typing) (df : pd.DataFrame) (k s : string) :
  pd.is_na s = true -> pd.parse_cell retype df k (Some s) = None.
Proof. intros H. simpl. now rewrite H. Qed.




Section Properties.

Variable clock : nat -> string.
Variable retype : pd.typing.
Variable smtp_reply : smtp_action -> option exn.
Variable cfg : Config.

(** ** The record store *)

Ltac run_store :=
  unfold save_report, save_report_frame, initialize_csv, bind, ret, raise,
    datetime_now, os_path_exists, read_csv, to_csv; simpl.


(** [save_report] shows nothing and sends nothing, and when it raises the
    file is as it was. *)
Lemma save_report_frame_conditions (issue_type description location : string)
    (w : World) :
  let out := save_report clock retype issue_type description location w in
  ui (snd out) = ui w /\ net (snd out) = net w /\
  writable (snd out) = writable w /\
  (forall e, fst out = Raise e -> reports_file (snd out) = reports_file w).
Proof.
  destruct w as [[[df|e0]|] [|] t u n]; run_store;
    repeat split; intros; try reflexivity; discriminate.
Qed.

(** ** The notifier *)

Ltac run_mail :=
  unfold send_email_alert, send_email_attempt, with_SMTP, try_except, bind,
    ret, smtp_do, datetime_now, st.error, st.emit; simpl.

Ltac relay_cases :=
  repeat match goal with
         | |- context [match smtp_reply ?a with _ => _ end] =>
             let E := fresh "E" in destruct (smtp_reply a) eqn:E; simpl
         end.

Lemma py_not_false (s : string) : py_not s = false <-> s <> "".
Proof.
  unfold py_not. split.
  - intros H ->. discriminate.
  - intros H. destruct (String.eqb s "") eqn:E; [|reflexivity].
    apply String.eqb_eq in E. contradiction.
Qed.

Lemma py_not_true (s : string) : py_not s = true <-> s = "".
Proof. unfold py_not. apply String.eqb_eq. Qed.

Lemma unconfigured_guard :
  py_not (SENDER_EMAIL cfg) || py_not (SENDER_PASSWORD cfg)
    || py_not (SECURITY_EMAIL cfg) = false
  <-> configured cfg.
Proof.
  unfold configured. rewrite !orb_false_iff, !py_not_false. tauto.
Qed.

(** [send_email_alert] always comes back with a boolean, and keeps its
    hands off the store. *)
Lemma send_email_alert_total (issue_type description location : string)
    (w : World) :
  exists b w',
    send_email_alert clock smtp_reply cfg issue_type description location w
    = (Ok b, w') /\
    reports_file w' = reports_file w /\ writable w' = writable w.
Proof.
  run_mail.
  destruct (py_not (SENDER_EMAIL cfg) || py_not (SENDER_PASSWORD cfg)
            || py_not (SECURITY_EMAIL cfg)).
  - exists false, w. repeat split.
  - relay_cases; eexists; eexists; repeat split.
Qed.

(** ** Submission *)

Ltac run_ui := unfold st.success, st.info, st.warning, st.balloons, st.error,
  st.emit, bind, ret; simpl.




(** A submission with an empty required field only shows the error. *)
Lemma submit_report_invalid (issue_type description location : string)
    (w : World) :
  description = "" \/ location = "" ->
  submit_report clock retype smtp_reply cfg issue_type description location w
  = st.error "Please fill in all required fields." w.
Proof.
  intros H. unfold submit_report.
  assert (G : py_not location || py_not description = true).
  { apply orb_true_iff. destruct H as [H|H]; [right|left];
      now apply py_not_true. }
  now rewrite G.
Qed.

(** C2 (amended). For every input in which description or location is the
    empty string, [submit_report] only shows the "fill in all required
    fields" error: the store, the clock and the SMTP log are untouched, so
    nothing is saved and the notifier is not invoked.  (Whitespace-only
    text is not empty and is accepted.) *)
Theorem submit_report_rejects_empty_fields
    (issue_type description location : string) (w : World) :
  description = "" \/ location = "" ->
  submit_report clock retype smtp_reply cfg issue_type description location w
  = (Ok tt, mkWorld (reports_file w) (writable w) (ticks w)
              (ui w ++ [StError "Please fill in all required fields."])
              (net w)).
Proof.
  intros H. now rewrite submit_report_invalid.
Qed.




(** ** Notification *)

(** C5. For every report and every configuration, whatever the relay does,
    [send_email_alert] raises nothing: it comes back with [True] or [False],
    and with [True] only when the three settings are present and the relay
    accepted every command of the session; any missing setting and any
    refusal by the relay (connecting, STARTTLS, login, sending, QUIT) ends
    in [False]. *)
Theorem send_email_alert_never_raises
    (issue_type description location : string) (w : World) :
  exists b w',
    send_email_alert clock smtp_reply cfg issue_type description location w
    = (Ok b, w') /\
    (b = true <->
     configured cfg /\
     relay_accepts smtp_reply cfg
       (alert_message cfg issue_type description location (clock (ticks w)))).
Proof.
  run_mail.
  destruct (py_not (SENDER_EMAIL cfg) || py_not (SENDER_PASSWORD cfg)
            || py_not (SECURITY_EMAIL cfg)) eqn:G.
  - exists false, w. split; [reflexivity|]. split; [discriminate|].
    intros [C _]. apply unconfigured_guard in C. congruence.
  - apply unconfigured_guard in G. unfold relay_accepts.
    relay_cases; eexists; eexists; (split; [reflexivity|]);
      (split; [try discriminate; intros _;
               (split; [exact G | repeat split; assumption])
              | intros [_ [? [? [? [? ?]]]]]; try reflexivity; congruence]).
Qed.

(** A run with all settings present that still comes back [False] has
    tried to connect and has shown the failure. *)
Lemma transport_failure_is_reported
    (issue_type description location : string) (w w' : World) :
  configured cfg ->
  send_email_alert clock smtp_reply cfg issue_type description location w
  = (Ok false, w') ->
  (exists e, ui w' = ui w ++ [StError ("Failed to send email alert: " ++ exn_str e)]) /\
  (exists rest, net w' = net w ++ Connect (SMTP_SERVER cfg) (SMTP_PORT cfg) :: rest).
Proof.
  intros C. apply unconfigured_guard in C. run_mail. rewrite C.
  relay_cases; intros H; inversion H; subst; clear H; simpl;
    (split; [eexists; reflexivity|]);
    rewrite <- ?app_assoc; simpl; eexists; reflexivity.
Qed.

(** C6. If any of the three delivery settings (sender address, sender
    password, recipient address) is absent or empty, [send_email_alert]
    comes back [False] at once: the world is exactly as before, so no SMTP
    command was issued and nothing was shown.  A transport failure is told
    apart from this: with all settings present a [False] comes with a
    connection attempt in the SMTP log and a "Failed to send email alert"
    error on the page. *)
Theorem unconfigured_alert_short_circuits
    (issue_type description location : string) (w : World) :
  (SENDER_EMAIL cfg = "" \/ SENDER_PASSWORD cfg = "" \/ SECURITY_EMAIL cfg = "" ->
   send_email_alert clock smtp_reply cfg issue_type description location w
   = (Ok false, w)) /\
  (configured cfg ->
   forall w',
     send_email_alert clock smtp_reply cfg issue_type description location w
     = (Ok false, w') ->
     (exists e, ui w' = ui w ++ [StError ("Failed to send email alert: " ++ exn_str e)]) /\
     (exists rest, net w' = net w ++ Connect (SMTP_SERVER cfg) (SMTP_PORT cfg) :: rest)).
Proof.
  split.
  - intros H. unfold send_email_alert.
    assert (G : py_not (SENDER_EMAIL cfg) || py_not (SENDER_PASSWORD cfg)
                || py_not (SECURITY_EMAIL cfg) = true).
    { rewrite !orb_true_iff, !py_not_true. tauto. }
    now rewrite G.
  - intros C w' H. exact (transport_failure_is_reported _ _ _ _ C H).
Qed.

(** C7. In every run of [submit_report] that passes validation,
    notification comes only after a successful append.  If [save_report]
    raises, the run ends there with that exception and in that world: no
    SMTP command and no message.  If [save_report] returns, the notifier
    runs next and comes back with a boolean, and the run ends normally with
    the success notice followed by the notice matching that boolean; the
    file is the one [save_report] wrote. *)
Theorem notification_only_after_append
    (issue_type description location : string) (w : World) :
  description <> "" -> location <> "" ->
  (forall e w1,
     save_report clock retype issue_type description location w = (Raise e, w1) ->
     submit_report clock retype smtp_reply cfg issue_type description location w
     = (Raise e, w1) /\
     net w1 = net w /\ ui w1 = ui w) /\
  (forall r w1,
     save_report clock retype issue_type description location w = (Ok r, w1) ->
     exists b w2,
       send_email_alert clock smtp_reply cfg issue_type description location w1
       = (Ok b, w2) /\
       reports_file w2 = reports_file w1 /\
       submit_report clock retype smtp_reply cfg issue_type description location w
       = (Ok tt,
          mkWorld (reports_file w2) (writable w2) (ticks w2)
            (ui w2 ++
             [StSuccess "✅ Report submitted successfully!";
              if b
              then StInfo "📧 Security team has been notified via email."
              else StWarning "⚠️ Report saved, but email notification could not be sent. Please check email configuration.";
              StBalloons])
            (net w2))).
Proof.
  intros Hd Hl.
  assert (Hgo : forall w0,
    submit_report clock retype smtp_reply cfg issue_type description location w0
    = (save_report clock retype issue_type description location ;;
       email_sent <- send_email_alert clock smtp_reply cfg issue_type
                       description location ;;
       st.success "✅ Report submitted successfully!" ;;
       (if email_sent
        then st.info "📧 Security team has been notified via email."
        else st.warning "⚠️ Report saved, but email notification could not be sent. Please check email configuration.") ;;
       st.balloons) w0).
  { intros w0. unfold submit_report.
    now rewrite (proj2 (py_not_false location) Hl),
                (proj2 (py_not_false description) Hd). }
  split.
  - intros e w1 Hsave. rewrite Hgo. unfold bind at 1. rewrite Hsave.
    split; [reflexivity|].
    pose proof (save_report_frame_conditions issue_type description location w)
      as [Hui [Hnet _]].
    rewrite Hsave in Hui, Hnet. simpl in Hui, Hnet. now split.
  - intros r w1 Hsave.
    destruct (send_email_alert_total issue_type description location w1)
      as [b [w2 [Hmail [Hfile _]]]].
    exists b, w2. split; [exact Hmail|]. split; [exact Hfile|].
    rewrite Hgo. unfold bind at 1. rewrite Hsave.
    unfold bind at 1. rewrite Hmail.
    destruct b; run_ui; rewrite <- !app_assoc; reflexivity.
Qed.

(** ** Initialisation *)

(** C8. [initialize_csv] is idempotent: on a world where the reports file
    exists, populated or not, it changes nothing at all; and from any world,
    calling it twice comes to the same as calling it once. *)
Theorem initialize_csv_idempotent (w : World) :
  (forall content,
     reports_file w = Some content -> initialize_csv w = (Ok tt, w)) /\
  (initialize_csv ;; initialize_csv) w = initialize_csv w.
Proof.
  destruct w as [[c|] [|] t u n]; split; intros; try discriminate;
    reflexivity.
Qed.

(** C10. [save_report] does not need [initialize_csv] to have run: when the
    reports file does not exist (and can be created), the call succeeds and
    creates the file with the five-column header and exactly the one new
    record. *)
Theorem save_report_creates_missing_store
    (issue_type description location : string) (w : World) :
  reports_file w = None -> writable w = true ->
  save_report clock retype issue_type description location w
  = (Ok None,
     mkWorld
       (Some (Csv (pd.mkDataFrame
          ["Timestamp"; "Issue Type"; "Description"; "Location"; "Status"]
          [[Some (clock (ticks w)); Some issue_type; Some description;
            Some location; Some "Pending"]])))
       true (S (ticks w)) (ui w) (net w)).
Proof.
  destruct w as [f wr t u n]. simpl. intros -> ->. reflexivity.
Qed.

(** ** Several submissions *)

Lemma stamped_length (n : nat) (reqs : list (string * string * string)) :
  length (stamped clock n reqs) = length reqs.
Proof.
  revert n. induction reqs as [|[[i d] l] reqs IH]; intros n; simpl;
    [reflexivity | now rewrite IH].
Qed.

(** A thread that takes its two steps with nothing in between does what
    [save_report] does. *)
Lemma thread_runs_save_report (issue_type description location : string)
    (w : World) :
  let (t1, w1) := thread_step clock retype (Start issue_type description location) w in
  let (t2, w2) := thread_step clock retype t1 w1 in
  match save_report clock retype issue_type description location w with
  | (Ok _, w') => t2 = Returned /\ w2 = w'
  | (Raise e, w') => t2 = Crashed e /\ w2 = w'
  end.
Proof.
  destruct w as [[[df|e0]|] [|] t u n]; simpl; split; reflexivity.
Qed.






End Properties.

(** * The program on concrete inputs *)

(** ** Scenarios *)

(** A noise complaint with no notifier settings, on a disk with no reports
    file: saved, success shown with the warning, no SMTP traffic. *)
Example scenario_no_notifier_settings (retype : pd.typing) :
  submit_report demo_clock retype relay_up cfg_unset "Noise Complaint"
    "Loud music after midnight" "Building 2 Unit 4" world_fresh
  = (Ok tt,
     mkWorld
       (Some (Csv (pd.mkDataFrame REPORT_COLUMNS
          [[Some "2025-03-01 23:58:07"; Some "Noise Complaint";
            Some "Loud music after midnight"; Some "Building 2 Unit 4";
            Some "Pending"]])))
       true 1
       [StSuccess "✅ Report submitted successfully!";
        StWarning "⚠️ Report saved, but email notification could not be sent. Please check email configuration.";
        StBalloons]
       []).
Proof. reflexivity. Qed.

(** An empty description: the error, and nothing else. *)
Example scenario_empty_description (retype : pd.typing) :
  submit_report demo_clock retype relay_up cfg_set "Noise Complaint" ""
    "Building 2 Unit 4" world_fresh
  = (Ok tt, mkWorld None true 0
              [StError "Please fill in all required fields."] []).
Proof. reflexivity. Qed.

(** All settings present and a relay that accepts: one session, closed by
    QUIT, and the alert carries the second clock reading. *)
Example scenario_alert_delivered (retype : pd.typing) :
  let out := submit_report demo_clock retype relay_up cfg_set "Car Alarm"
               "Alarm going off for an hour" "Parking Lot B" world_initialized in
  net (snd out)
  = [Connect "smtp.gmail.com" 587; StartTLS;
     Login "office@cherrywood.example" "app-password";
     SendMessage (alert_message cfg_set "Car Alarm"
                    "Alarm going off for an hour" "Parking Lot B"
                    "2025-03-01 23:58:09");
     Quit] /\
  ui (snd out)
  = [StSuccess "✅ Report submitted successfully!";
     StInfo "📧 Security team has been notified via email.";
     StBalloons].
Proof. split; reflexivity. Qed.

(** A file written by other tooling with a different header: the columns
    are merged, missing cells are NaN, and the reports still read back. *)
Example concat_merges_columns :
  pd.concat
    (pd.mkDataFrame ["Location"; "Unit"] [[Some "Parking Lot B"; Some "12"]])
    (pd.DataFrame_record [("Timestamp", "t"); ("Location", "Gate")])
  = pd.mkDataFrame ["Location"; "Unit"; "Timestamp"]
      [[Some "Parking Lot B"; Some "12"; None];
       [Some "Gate"; None; Some "t"]].
Proof. reflexivity. Qed.

(** What [pd.read_csv] makes of a row: the NA marker is lost, the rest is
    re-typed. *)
Example parse_drops_na_marker (retype : pd.typing) :
  let df := pd.mkDataFrame ["Location"; "Status"]
              [[Some "N/A"; Some "Pending"]] in
  pd.parse retype df
  = pd.mkDataFrame ["Location"; "Status"]
      [[None; Some (retype df "Status" "Pending")]].
Proof. reflexivity. Qed.

(** ** Where the code departs from the specification *)

(** C1, counterexample. A valid submission whose description is the text
    N/A: it is written as given, and the dashboard's read gives back a
    report with no description, whatever the typing of the other cells. *)
Lemma na_description_reads_back_missing :
  (In "Noise Complaint" ISSUE_TYPES /\ "N/A" <> "" /\
   "Building 2 Unit 4" <> "" /\ store_ok world_initialized) /\
  forall retype : pd.typing,
    let w' := snd (submit_report demo_clock retype relay_up cfg_unset
                     "Noise Complaint" "N/A" "Building 2 Unit 4"
                     world_initialized) in
    map Description (stored_reports w') = [Some "N/A"] /\
    exists df,
      management_dashboard retype w' = (Ok (Some df), w') /\
      map Description (reports_of df) = [None] /\
      map Description (reports_of df) <> [Some "N/A"].
Proof.
  split.
  - split; [simpl; auto|]. split; [discriminate|]. split; [discriminate|].
    split; [reflexivity|intros e; discriminate].
  - intros retype. split; [reflexivity|].
    eexists. split; [reflexivity|]. split; [reflexivity|discriminate].
Qed.

(** C2, counterexample. A description made of blanks passes the check
    [not description]: the report is saved (one record where there was none)
    and the success notice is shown instead of the error. *)
Lemma whitespace_description_is_saved :
  "   " <> "" /\
  forall retype : pd.typing,
    let out := submit_report demo_clock retype relay_up cfg_unset
                 "Noise Complaint" "   " "Building 2 Unit 4"
                 world_initialized in
    fst out = Ok tt /\
    stored_reports (snd out)
    = [pending_report "2025-03-01 23:58:07" "Noise Complaint" "   "
         "Building 2 Unit 4"] /\
    length (stored_reports (snd out))
    <> length (stored_reports world_initialized) /\
    ~ In (StError "Please fill in all required fields.") (ui (snd out)).
Proof.
  split; [discriminate|]. intros retype.
  vm_compute. repeat split; try discriminate.
  intros [H|[H|[H|[]]]]; discriminate.
Qed.




(** ** The theorems at work *)


(** C2 (amended) on the empty description. *)
Lemma submit_report_rejects_empty_fields_witness :
  ("" = "" \/ "Building 2 Unit 4" = "") /\
  forall retype : pd.typing,
  submit_report demo_clock retype relay_up cfg_set "Noise Complaint" ""
    "Building 2 Unit 4" world_one_report
  = (Ok tt, mkWorld (reports_file world_one_report) true 0
              [StError "Please fill in all required fields."] []).
Proof.
  assert (H : "" = "" \/ "Building 2 Unit 4" = "") by (left; reflexivity).
  split; [exact H|]. intros retype.
  exact (submit_report_rejects_empty_fields demo_clock retype relay_up cfg_set
           "Noise Complaint" world_one_report H).
Defined.



(** C5 with all settings present and a relay that refuses the login. *)
Lemma send_email_alert_never_raises_witness :
  exists b w',
    send_email_alert demo_clock relay_rejects_login cfg_set "Other"
      "Broken gate" "Main entrance" world_initialized = (Ok b, w') /\
    (b = true <->
     configured cfg_set /\
     relay_accepts relay_rejects_login cfg_set
       (alert_message cfg_set "Other" "Broken gate" "Main entrance"
          (demo_clock (ticks world_initialized)))).
Proof.
  exact (send_email_alert_never_raises demo_clock relay_rejects_login cfg_set
           "Other" "Broken gate" "Main entrance" world_initialized).
Defined.

(** C6 on both sides: no settings at all, and all settings with a relay
    that refuses the login. *)
Lemma unconfigured_alert_short_circuits_witness :
  send_email_alert demo_clock relay_up cfg_unset "Other" "Broken gate"
    "Main entrance" world_initialized
  = (Ok false, world_initialized) /\
  (let w' := snd (send_email_alert demo_clock relay_rejects_login cfg_set
                    "Other" "Broken gate" "Main entrance" world_initialized) in
   (exists e, ui w' = ui world_initialized ++
                      [StError ("Failed to send email alert: " ++ exn_str e)]) /\
   (exists rest, net w' = net world_initialized ++
                          Connect "smtp.gmail.com" 587 :: rest)).
Proof.
  split.
  - apply (proj1 (unconfigured_alert_short_circuits demo_clock relay_up
                    cfg_unset "Other" "Broken gate" "Main entrance"
                    world_initialized)).
    left. reflexivity.
  - apply (proj2 (unconfigured_alert_short_circuits demo_clock
                    relay_rejects_login cfg_set "Other" "Broken gate"
                    "Main entrance" world_initialized)).
    + repeat split; discriminate.
    + reflexivity.
Defined.

(** C7 on both sides: a disk that refuses the write, and a working disk
    with a relay that refuses the login. *)
Lemma notification_only_after_append_witness :
  ("Broken gate" <> "" /\ "Main entrance" <> "") /\
  forall retype : pd.typing,
  (let w1 := mkWorld (reports_file world_read_only) false 1 [] [] in
   submit_report demo_clock retype relay_rejects_login cfg_set "Other"
     "Broken gate" "Main entrance" world_read_only
   = (Raise PermissionError, w1) /\
   net w1 = net world_read_only /\ ui w1 = ui world_read_only) /\
  (exists b w2 w3,
     send_email_alert demo_clock relay_rejects_login cfg_set "Other"
       "Broken gate" "Main entrance"
       (snd (save_report demo_clock retype "Other" "Broken gate"
               "Main entrance" world_initialized))
     = (Ok b, w2) /\
     submit_report demo_clock retype relay_rejects_login cfg_set "Other"
       "Broken gate" "Main entrance" world_initialized = (Ok tt, w3) /\
     reports_file w3 = reports_file w2).
Proof.
  assert (Hd : "Broken gate" <> "") by discriminate.
  assert (Hl : "Main entrance" <> "") by discriminate.
  split; [split; assumption|]. intros retype. split.
  - apply (proj1 (notification_only_after_append demo_clock retype
                    relay_rejects_login cfg_set "Other" world_read_only
                    Hd Hl)).
    reflexivity.
  - destruct (proj2 (notification_only_after_append demo_clock retype
                       relay_rejects_login cfg_set "Other" world_initialized
                       Hd Hl)
                None
                (snd (save_report demo_clock retype "Other" "Broken gate"
                        "Main entrance" world_initialized))
                eq_refl)
      as [b [w2 [Hmail [_ Hrun]]]].
    exists b, w2. eexists. split; [exact Hmail|]. split; [exact Hrun|].
    reflexivity.
Defined.

(** C8 on a populated store and on a missing file. *)
Lemma initialize_csv_idempotent_witness :
  initialize_csv world_one_report = (Ok tt, world_one_report) /\
  (initialize_csv ;; initialize_csv) world_one_report
  = initialize_csv world_one_report /\
  (initialize_csv ;; initialize_csv) world_fresh = initialize_csv world_fresh.
Proof.
  split; [|split].
  - exact (proj1 (initialize_csv_idempotent world_one_report) _ eq_refl).
  - exact (proj2 (initialize_csv_idempotent world_one_report)).
  - exact (proj2 (initialize_csv_idempotent world_fresh)).
Defined.


(** C10 on a world where [initialize_csv] has never run. *)
Lemma save_report_creates_missing_store_witness :
  (reports_file world_fresh = None /\ writable world_fresh = true) /\
  forall retype : pd.typing,
  save_report demo_clock retype "Car Alarm" "Alarm going off for an hour"
    "Parking Lot B" world_fresh
  = (Ok None,
     mkWorld
       (Some (Csv (pd.mkDataFrame REPORT_COLUMNS
          [[Some "2025-03-01 23:58:07"; Some "Car Alarm";
            Some "Alarm going off for an hour"; Some "Parking Lot B";
            Some "Pending"]])))
       true 1 [] []).
Proof.
  split; [split; reflexivity|]. intros retype.
  exact (save_report_creates_missing_store demo_clock retype "Car Alarm"
           "Alarm going off for an hour" "Parking Lot B" world_fresh
           eq_refl eq_refl).
Defined.
